(** * Lesson builder: the server actions over the five lesson tables

    A shallow embedding of [src/db/tables.ts] (the schema) and of the action
    handlers ([createPlan] ... [listJobs]), followed by the properties of the
    handlers.

    Rows are the objects the query builder hands to the handlers: finite maps
    from column names to values.  A key that is absent from such an object is
    JavaScript's [undefined]; SQL NULL is the value [VNull].  The handlers run
    in a small state-and-error monad over the store: a thrown [ActionError]
    ends the handler and leaves the store as it was at the throw. *)

From stdpp Require Import gmap strings list fin_maps.
From Stdlib Require Import ZArith.

Open Scope Z_scope.
Open Scope string_scope.

(** ** Values and rows *)

Inductive Value :=
| VNull
| VNum (n : Z)
| VText (s : string)
| VDate (t : Z)
| VJson (j : string).

#[global] Instance Value_eq_dec : EqDecision Value.
Proof. solve_decision. Defined.

#[global] Instance Value_countable : Countable Value.
Proof.
  refine (inj_countable'
    (λ v, match v with
          | VNull => inl ()
          | VNum n => inr (inl n)
          | VText s => inr (inr (inl s))
          | VDate t => inr (inr (inr (inl t)))
          | VJson j => inr (inr (inr (inr j)))
          end)
    (λ x, match x with
          | inl _ => VNull
          | inr (inl n) => VNum n
          | inr (inr (inl s)) => VText s
          | inr (inr (inr (inl t))) => VDate t
          | inr (inr (inr (inr j))) => VJson j
          end) _).
  by intros [].
Defined.

(** A row, and every object literal the handlers build. *)
Abbreviation Row := (gmap string Value).

(** JavaScript truthiness of [o.key]: [undefined], [null], [0] and the empty
    string are falsy. *)
Definition truthy (v : option Value) : bool :=
  match v with
  | None => false
  | Some VNull => false
  | Some (VNum n) => negb (Z.eqb n 0)
  | Some (VText s) => negb (String.eqb s "")
  | Some (VDate _) => true
  | Some (VJson _) => true
  end.

(** An object literal [{ k1: e1, k2: e2, ... }] whose members may be
    [undefined].  The query builder skips undefined members of [values] and
    [set], and the loop of [updatePlan] copies the defined ones only, so the
    object is kept as the map of its defined members. *)
Fixpoint obj (members : list (string * option Value)) : Row :=
  match members with
  | [] => ∅
  | (k, Some v) :: rest => <[k := v]> (obj rest)
  | (_, None) :: rest => obj rest
  end.

(** ** The schema, [src/db/tables.ts] *)

Inductive TableName :=
| LessonPlans
| LessonObjectives
| LessonSteps
| LessonMaterials
| LessonJobs.

#[global] Instance TableName_eq_dec : EqDecision TableName.
Proof. solve_decision. Defined.

Inductive ColumnType := CNumber | CText | CDate | CJson.

Inductive ColumnDefault :=
| DefaultValue (v : Value)
| NOW.

Record Column := mkColumn {
  colType : ColumnType;
  primaryKey : bool;
  autoIncrement : bool;
  optional : bool;
  enum : option (list string);
  col_default : option ColumnDefault;
  references : option (TableName * string)
}.

Module column.
Definition number : Column := mkColumn CNumber false false false None None None.
Definition text : Column := mkColumn CText false false false None None None.
Definition date : Column := mkColumn CDate false false false None None None.
Definition json : Column := mkColumn CJson false false false None None None.
End column.

Definition with_primaryKey (c : Column) : Column :=
  mkColumn (colType c) true (autoIncrement c) (optional c) (enum c) (col_default c) (references c).
Definition with_autoIncrement (c : Column) : Column :=
  mkColumn (colType c) (primaryKey c) true (optional c) (enum c) (col_default c) (references c).
Definition with_optional (c : Column) : Column :=
  mkColumn (colType c) (primaryKey c) (autoIncrement c) true (enum c) (col_default c) (references c).
Definition with_enum (e : list string) (c : Column) : Column :=
  mkColumn (colType c) (primaryKey c) (autoIncrement c) (optional c) (Some e) (col_default c) (references c).
Definition with_default (d : ColumnDefault) (c : Column) : Column :=
  mkColumn (colType c) (primaryKey c) (autoIncrement c) (optional c) (enum c) (Some d) (references c).
Definition with_references (t : TableName) (k : string) (c : Column) : Column :=
  mkColumn (colType c) (primaryKey c) (autoIncrement c) (optional c) (enum c) (col_default c) (Some (t, k)).

Definition idColumn : Column := with_autoIncrement (with_primaryKey column.number).

(** [defineTable({ columns: ... })], the columns in the order they are declared. *)
Definition columns (t : TableName) : list (string * Column) :=
  match t with
  | LessonPlans =>
      [ ("id", idColumn);
        ("ownerId", column.text);
        ("title", column.text);
        ("subject", with_optional column.text);
        ("gradeLevel", with_optional column.text);
        ("overview", with_optional column.text);
        ("durationMinutes", with_optional column.number);
        ("tags", with_optional column.text);
        ("status", with_default (DefaultValue (VText "draft"))
                     (with_enum ["draft"; "published"; "archived"] column.text));
        ("createdAt", with_default NOW column.date);
        ("updatedAt", with_default NOW column.date) ]
  | LessonObjectives =>
      [ ("id", idColumn);
        ("planId", with_references LessonPlans "id" column.number);
        ("text", column.text);
        ("order", with_default (DefaultValue (VNum 1)) column.number);
        ("createdAt", with_default NOW column.date) ]
  | LessonSteps =>
      [ ("id", idColumn);
        ("planId", with_references LessonPlans "id" column.number);
        ("title", with_optional column.text);
        ("description", column.text);
        ("durationMinutes", with_optional column.number);
        ("order", with_default (DefaultValue (VNum 1)) column.number);
        ("createdAt", with_default NOW column.date) ]
  | LessonMaterials =>
      [ ("id", idColumn);
        ("planId", with_references LessonPlans "id" column.number);
        ("name", column.text);
        ("type", with_optional column.text);
        ("url", with_optional column.text);
        ("createdAt", with_default NOW column.date) ]
  | LessonJobs =>
      [ ("id", idColumn);
        ("planId", with_optional (with_references LessonPlans "id" column.number));
        ("userId", with_optional column.text);
        ("jobType", with_default (DefaultValue (VText "full"))
                      (with_enum ["outline"; "objectives"; "steps"; "materials"; "full"]
                         column.text));
        ("input", with_optional column.json);
        ("output", with_optional column.json);
        ("status", with_default (DefaultValue (VText "completed"))
                     (with_enum ["pending"; "completed"; "failed"] column.text));
        ("createdAt", with_default NOW column.date) ]
  end.

(** ** The store *)

(** A table holds its rows in insertion order and the largest id it has ever
    handed out (the sequence of an auto-increment key). *)
Record TableData := mkTable {
  rows : list Row;
  sequence : Z
}.

Record Store := mkStore {
  plans : TableData;
  objectives : TableData;
  steps : TableData;
  materials : TableData;
  jobs : TableData
}.

#[global] Instance TableData_eq_dec : EqDecision TableData.
Proof. solve_decision. Defined.

#[global] Instance Store_eq_dec : EqDecision Store.
Proof. solve_decision. Defined.

Definition table (t : TableName) (s : Store) : TableData :=
  match t with
  | LessonPlans => plans s
  | LessonObjectives => objectives s
  | LessonSteps => steps s
  | LessonMaterials => materials s
  | LessonJobs => jobs s
  end.

Definition set_table (t : TableName) (d : TableData) (s : Store) : Store :=
  match t with
  | LessonPlans => mkStore d (objectives s) (steps s) (materials s) (jobs s)
  | LessonObjectives => mkStore (plans s) d (steps s) (materials s) (jobs s)
  | LessonSteps => mkStore (plans s) (objectives s) d (materials s) (jobs s)
  | LessonMaterials => mkStore (plans s) (objectives s) (steps s) d (jobs s)
  | LessonJobs => mkStore (plans s) (objectives s) (steps s) (materials s) d
  end.

Definition emptyTable : TableData := mkTable [] 0.
Definition emptyStore : Store :=
  mkStore emptyTable emptyTable emptyTable emptyTable emptyTable.

(** ** The action monad *)

(** The codes of [ActionError].  [BAD_REQUEST] is what [defineAction] raises
    when the input does not pass its schema. *)
Inductive ErrorCode := UNAUTHORIZED | NOT_FOUND | BAD_REQUEST.

Inductive Result (A : Type) :=
| Ok (a : A)
| Err (code : ErrorCode).
Arguments Ok {A} a.
Arguments Err {A} code.

#[global] Instance ErrorCode_eq_dec : EqDecision ErrorCode.
Proof. solve_decision. Defined.

#[global] Instance Result_eq_dec {A} `{EqDecision A} : EqDecision (Result A).
Proof. solve_decision. Defined.

Definition Action (A : Type) : Type := Store → Result A * Store.

Definition ret {A} (a : A) : Action A := λ s, (Ok a, s).

Definition throw {A} (code : ErrorCode) : Action A := λ s, (Err code, s).

Definition bind {A B} (m : Action A) (k : A → Action B) : Action B :=
  λ s, match m s with
       | (Ok a, s') => k a s'
       | (Err code, s') => (Err code, s')
       end.

Notation "x <- m ;; k" := (bind m (λ x, k))
  (at level 100, m at next level, right associativity,
   format "'[v' x  <-  m  ;;  '/' k ']'").

(** [a ?? b] *)
Definition nullish {A} (a : option A) (b : A) : A :=
  match a with
  | Some v => v
  | None => b
  end.
Infix "??" := nullish (at level 45, left associativity).

(** ** The query builder *)

(** [eq(column, value)] and [and(c1, c2)] of a [where] clause.  An SQL
    comparison with NULL does not hold, and no handler passes NULL. *)
Definition eq_ (column : string) (value : Value) (r : Row) : Prop :=
  r !! column = Some value.

Definition and_ (c1 c2 : Row → Prop) (r : Row) : Prop := c1 r ∧ c2 r.

#[global] Instance eq__dec column value r : Decision (eq_ column value r).
Proof. unfold eq_. apply _. Defined.

#[global] Instance and__dec c1 c2 `{∀ r, Decision (c1 r)} `{∀ r, Decision (c2 r)} r :
  Decision (and_ c1 c2 r).
Proof. unfold and_. apply _. Defined.

(** [.limit(n)] *)
Definition limit {A} (n : nat) (l : list A) : list A := take n l.

(** The engine is outside the repository.  Its reads and writes are modelled
    as the query builder documents them; its constraint checks (NOT NULL,
    enum, foreign key) are not: every insert and update goes through.  The
    handlers supply each required column, and write a [planId] only after
    they have selected that plan, except [createJob] for the [planId] 0. *)
Module db.

(** The largest numeric [id] among the rows, starting from [m]. *)
Definition maxId (m : Z) (l : list Row) : Z :=
  foldr (λ r acc, match r !! "id" with
                  | Some (VNum n) => Z.max n acc
                  | _ => acc
                  end) m l.

(** The key an insert generates: above every key in the table and above
    every key ever generated for it. *)
Definition nextId (d : TableData) : Z := 1 + maxId (sequence d) (rows d).

(** The value stored in one column of a new row: the generated key, else
    the supplied value, else the column's default, else NULL.  No handler
    supplies the key. *)
Definition cell (now id : Z) (values : Row) (c : string * Column) : Value :=
  if autoIncrement c.2 then VNum id
  else match values !! c.1 with
       | Some v => v
       | None =>
           match col_default c.2 with
           | Some (DefaultValue v) => v
           | Some NOW => VDate now
           | None => VNull
           end
       end.

Definition newRow (t : TableName) (now id : Z) (values : Row) : Row :=
  list_to_map ((λ c, (c.1, cell now id values c)) <$> columns t).

(** [db.insert(t).values(values).returning()] *)
Definition insert (t : TableName) (now : Z) (values : Row) : Action (list Row) :=
  λ s, let d := table t s in
       let id := nextId d in
       let r := newRow t now id values in
       (Ok [r], set_table t (mkTable (rows d ++ [r]) id) s).

(** [db.select().from(t).where(c)] *)
Definition select (t : TableName) (c : Row → Prop) `{∀ r, Decision (c r)} :
    Action (list Row) :=
  λ s, (Ok (filter c (rows (table t s))), s).

(** [db.update(t).set(values).where(c).returning()] *)
Definition update (t : TableName) (values : Row) (c : Row → Prop)
    `{∀ r, Decision (c r)} : Action (list Row) :=
  λ s, let d := table t s in
       (Ok ((λ r, values ∪ r) <$> filter c (rows d)),
        set_table t
          (mkTable ((λ r, if decide (c r) then values ∪ r else r) <$> rows d)
                   (sequence d)) s).

(** [db.delete(t).where(c).returning()] *)
Definition delete (t : TableName) (c : Row → Prop) `{∀ r, Decision (c r)} :
    Action (list Row) :=
  λ s, let d := table t s in
       (Ok (filter c (rows d)),
        set_table t (mkTable (filter (λ r, ¬ c r) (rows d)) (sequence d)) s).

End db.

(** ** The caller *)

Record User := mkUser { user_id : string }.

(** [context.locals?.user] *)
Definition Context := option User.

Definition requireUser (context : Context) : Action User :=
  match context with
  | None => throw UNAUTHORIZED
  | Some user => ret user
  end.

(** ** The enumerations of the input schemas *)

Inductive PlanStatus := draft | published | archived.
Inductive JobType := outline | objectives_ | steps_ | materials_ | full.
Inductive JobStatus := pending | completed | failed.

#[global] Instance PlanStatus_eq_dec : EqDecision PlanStatus.
Proof. solve_decision. Defined.

#[global] Instance JobStatus_eq_dec : EqDecision JobStatus.
Proof. solve_decision. Defined.

Definition PlanStatus_str (st : PlanStatus) : string :=
  match st with
  | draft => "draft"
  | published => "published"
  | archived => "archived"
  end.

Definition JobType_str (t : JobType) : string :=
  match t with
  | outline => "outline"
  | objectives_ => "objectives"
  | steps_ => "steps"
  | materials_ => "materials"
  | full => "full"
  end.

Definition JobStatus_str (st : JobStatus) : string :=
  match st with
  | pending => "pending"
  | completed => "completed"
  | failed => "failed"
  end.

(** ** The inputs, as the schemas of [defineAction] type them

    An optional member is [None] when it is [undefined]. *)

Module CreatePlan.
Record t := mk {
  title : string;
  subject : option string;
  gradeLevel : option string;
  overview : option string;
  durationMinutes : option Z;
  tags : option string;
  status : option PlanStatus
}.
End CreatePlan.

Module UpdatePlan.
Record t := mk {
  id : Z;
  title : option string;
  subject : option string;
  gradeLevel : option string;
  overview : option string;
  durationMinutes : option Z;
  tags : option string;
  status : option PlanStatus
}.

(** [const { id, ...rest } = input], as [Object.entries(rest)]. *)
Definition rest (input : t) : list (string * option Value) :=
  [ ("title", VText <$> title input);
    ("subject", VText <$> subject input);
    ("gradeLevel", VText <$> gradeLevel input);
    ("overview", VText <$> overview input);
    ("durationMinutes", VNum <$> durationMinutes input);
    ("tags", VText <$> tags input);
    ("status", VText ∘ PlanStatus_str <$> status input) ].
End UpdatePlan.

Module ArchivePlan.
Record t := mk { id : Z }.
End ArchivePlan.

Module ListMyPlans.
Record t := mk { status : option PlanStatus }.
End ListMyPlans.

Module GetPlanWithDetails.
Record t := mk { id : Z }.

Record output := mkOutput {
  plan : Row;
  objectives : list Row;
  steps : list Row;
  materials : list Row
}.
End GetPlanWithDetails.

Module SaveObjective.
Record t := mk {
  id : option Z;
  planId : Z;
  text : string;
  order : option Z
}.
End SaveObjective.

Module DeleteChild.
(** The input of [deleteObjective], [deleteStep] and [deleteMaterial]. *)
Record t := mk { id : Z; planId : Z }.
End DeleteChild.

Module SaveStep.
Record t := mk {
  id : option Z;
  planId : Z;
  title : option string;
  description : string;
  durationMinutes : option Z;
  order : option Z
}.
End SaveStep.

Module SaveMaterial.
Record t := mk {
  id : option Z;
  planId : Z;
  name : string;
  type : option string;
  url : option string
}.
End SaveMaterial.

Module CreateJob.
Record t := mk {
  planId : option Z;
  jobType : option JobType;
  input : option string;
  output : option string;
  status : option JobStatus
}.
End CreateJob.

Module UpdateJob.
Record t := mk {
  id : Z;
  output : option string;
  status : option JobStatus
}.
End UpdateJob.

Module ListJobs.
Record t := mk {
  planId : option Z;
  status : option JobStatus
}.
End ListJobs.

(** ** The handlers *)

(** The plan [planId] as the caller owns it:
    [and(eq(LessonPlans.id, planId), eq(LessonPlans.ownerId, user.id))]. *)
Definition ownedPlan (planId : Z) (user : User) : Row → Prop :=
  and_ (eq_ "id" (VNum planId)) (eq_ "ownerId" (VText (user_id user))).

Definition createPlan (input : CreatePlan.t) (context : Context) (now : Z) :
    Action (option Row) :=
  user <- requireUser context ;;
  inserted <- db.insert LessonPlans now
    (obj [ ("ownerId", Some (VText (user_id user)));
           ("title", Some (VText (CreatePlan.title input)));
           ("subject", VText <$> CreatePlan.subject input);
           ("gradeLevel", VText <$> CreatePlan.gradeLevel input);
           ("overview", VText <$> CreatePlan.overview input);
           ("durationMinutes", VNum <$> CreatePlan.durationMinutes input);
           ("tags", VText <$> CreatePlan.tags input);
           ("status", Some (VText ((PlanStatus_str <$> CreatePlan.status input) ?? "draft")));
           ("createdAt", Some (VDate now));
           ("updatedAt", Some (VDate now)) ]) ;;
  ret (head inserted).

Definition updatePlan (input : UpdatePlan.t) (context : Context) (now : Z) :
    Action (option Row) :=
  user <- requireUser context ;;
  found <- db.select LessonPlans (ownedPlan (UpdatePlan.id input) user) ;;
  match head (limit 1 found) with
  | None => throw NOT_FOUND
  | Some existing =>
      let updateData := obj (UpdatePlan.rest input) in
      if decide (size updateData = 0%nat) then ret (Some existing)
      else
        updated <- db.update LessonPlans (<["updatedAt" := VDate now]> updateData)
                     (ownedPlan (UpdatePlan.id input) user) ;;
        ret (head updated)
  end.

Definition archivePlan (input : ArchivePlan.t) (context : Context) (now : Z) :
    Action (option Row) :=
  user <- requireUser context ;;
  updated <- db.update LessonPlans
               (obj [ ("status", Some (VText "archived")); ("updatedAt", Some (VDate now)) ])
               (ownedPlan (ArchivePlan.id input) user) ;;
  match head updated with
  | None => throw NOT_FOUND
  | Some plan => ret (Some plan)
  end.

Definition listMyPlans (input : option ListMyPlans.t) (context : Context) :
    Action (list Row) :=
  user <- requireUser context ;;
  plans <- db.select LessonPlans (eq_ "ownerId" (VText (user_id user))) ;;
  let status := VText ∘ PlanStatus_str <$> (input ≫= ListMyPlans.status) in
  let filtered :=
    if truthy status
    then filter (λ plan : Row, plan !! "status" = status) plans
    else plans in
  ret filtered.

Definition getPlanWithDetails (input : GetPlanWithDetails.t) (context : Context) :
    Action GetPlanWithDetails.output :=
  user <- requireUser context ;;
  found <- db.select LessonPlans (ownedPlan (GetPlanWithDetails.id input) user) ;;
  match head (limit 1 found) with
  | None => throw NOT_FOUND
  | Some plan =>
      objectives <- db.select LessonObjectives
                      (eq_ "planId" (VNum (GetPlanWithDetails.id input))) ;;
      steps <- db.select LessonSteps (eq_ "planId" (VNum (GetPlanWithDetails.id input))) ;;
      materials <- db.select LessonMaterials
                     (eq_ "planId" (VNum (GetPlanWithDetails.id input))) ;;
      ret (GetPlanWithDetails.mkOutput plan objectives steps materials)
  end.

(** The handlers of [saveObjective], [saveStep] and [saveMaterial] are the
    same text up to the table and the members of [baseValues]; [saveChild] is
    that text.  [id] and [planId] are [input.id] and [input.planId]. *)
Definition saveChild (t : TableName) (id : option Z) (planId : Z) (baseValues : Row)
    (context : Context) (now : Z) : Action (option Row) :=
  user <- requireUser context ;;
  found <- db.select LessonPlans (ownedPlan planId user) ;;
  match head (limit 1 found) with
  | None => throw NOT_FOUND
  | Some plan =>
      let create :=
        inserted <- db.insert t now baseValues ;;
        ret (head inserted) in
      match id with
      | Some i =>
          if truthy (Some (VNum i)) then
            found <- db.select t (eq_ "id" (VNum i)) ;;
            match head (limit 1 found) with
            | None => throw NOT_FOUND
            | Some existing =>
                if decide (existing !! "planId" ≠ Some (VNum planId))
                then throw NOT_FOUND
                else
                  updated <- db.update t baseValues (eq_ "id" (VNum i)) ;;
                  ret (head updated)
            end
          else create
      | None => create
      end
  end.

Definition saveObjective (input : SaveObjective.t) : Context → Z → Action (option Row) :=
  saveChild LessonObjectives (SaveObjective.id input) (SaveObjective.planId input)
    (obj [ ("planId", Some (VNum (SaveObjective.planId input)));
           ("text", Some (VText (SaveObjective.text input)));
           ("order", Some (VNum (SaveObjective.order input ?? 1))) ]).

Definition saveStep (input : SaveStep.t) : Context → Z → Action (option Row) :=
  saveChild LessonSteps (SaveStep.id input) (SaveStep.planId input)
    (obj [ ("planId", Some (VNum (SaveStep.planId input)));
           ("title", VText <$> SaveStep.title input);
           ("description", Some (VText (SaveStep.description input)));
           ("durationMinutes", VNum <$> SaveStep.durationMinutes input);
           ("order", Some (VNum (SaveStep.order input ?? 1))) ]).

Definition saveMaterial (input : SaveMaterial.t) : Context → Z → Action (option Row) :=
  saveChild LessonMaterials (SaveMaterial.id input) (SaveMaterial.planId input)
    (obj [ ("planId", Some (VNum (SaveMaterial.planId input)));
           ("name", Some (VText (SaveMaterial.name input)));
           ("type", VText <$> SaveMaterial.type input);
           ("url", VText <$> SaveMaterial.url input) ]).

(** The handlers of [deleteObjective], [deleteStep] and [deleteMaterial] are
    the same text up to the table. *)
Definition deleteChild (t : TableName) (input : DeleteChild.t) (context : Context) :
    Action Row :=
  user <- requireUser context ;;
  found <- db.select LessonPlans (ownedPlan (DeleteChild.planId input) user) ;;
  match head (limit 1 found) with
  | None => throw NOT_FOUND
  | Some plan =>
      removed <- db.delete t (and_ (eq_ "id" (VNum (DeleteChild.id input)))
                                   (eq_ "planId" (VNum (DeleteChild.planId input)))) ;;
      match head removed with
      | None => throw NOT_FOUND
      | Some deleted => ret deleted
      end
  end.

Definition deleteObjective : DeleteChild.t → Context → Action Row :=
  deleteChild LessonObjectives.
Definition deleteStep : DeleteChild.t → Context → Action Row :=
  deleteChild LessonSteps.
Definition deleteMaterial : DeleteChild.t → Context → Action Row :=
  deleteChild LessonMaterials.

Definition createJob (input : CreateJob.t) (context : Context) (now : Z) :
    Action (option Row) :=
  user <- requireUser context ;;
  _ <- match CreateJob.planId input with
       | Some planId =>
           if truthy (Some (VNum planId)) then
             found <- db.select LessonPlans (ownedPlan planId user) ;;
             match head (limit 1 found) with
             | None => throw NOT_FOUND
             | Some plan => ret ()
             end
           else ret ()
       | None => ret ()
       end ;;
  inserted <- db.insert LessonJobs now
    (obj [ ("planId", VNum <$> CreateJob.planId input);
           ("userId", Some (VText (user_id user)));
           ("jobType", Some (VText ((JobType_str <$> CreateJob.jobType input) ?? "full")));
           ("input", VJson <$> CreateJob.input input);
           ("output", VJson <$> CreateJob.output input);
           ("status", Some (VText ((JobStatus_str <$> CreateJob.status input) ?? "pending")));
           ("createdAt", Some (VDate now)) ]) ;;
  ret (head inserted).

Definition updateJob (input : UpdateJob.t) (context : Context) : Action (option Row) :=
  user <- requireUser context ;;
  found <- db.select LessonJobs
             (and_ (eq_ "id" (VNum (UpdateJob.id input)))
                   (eq_ "userId" (VText (user_id user)))) ;;
  match head (limit 1 found) with
  | None => throw NOT_FOUND
  | Some existing =>
      let updateData :=
        obj [ ("output", VJson <$> UpdateJob.output input);
              ("status", VText ∘ JobStatus_str <$> UpdateJob.status input) ] in
      if decide (size updateData = 0%nat) then ret (Some existing)
      else
        updated <- db.update LessonJobs updateData (eq_ "id" (VNum (UpdateJob.id input))) ;;
        ret (head updated)
  end.

(** [job.planId ? allowedPlanIds.has(job.planId) : true] *)
Definition matchesPlan (allowedPlanIds : gset (option Value)) (job : Row) : bool :=
  if truthy (job !! "planId")
  then bool_decide (job !! "planId" ∈ allowedPlanIds)
  else true.

(** [input?.status ? job.status === input.status : true] *)
Definition matchesStatus (status : option Value) (job : Row) : bool :=
  if truthy status
  then bool_decide (job !! "status" = status)
  else true.

Definition listJobs (input : option ListJobs.t) (context : Context) : Action (list Row) :=
  user <- requireUser context ;;
  plans <- db.select LessonPlans (eq_ "ownerId" (VText (user_id user))) ;;
  let planId := VNum <$> (input ≫= ListJobs.planId) in
  plans <- (if truthy planId then
              let plans := filter (λ p : Row, p !! "id" = planId) plans in
              if decide (length plans = 0%nat) then throw NOT_FOUND else ret plans
            else ret plans) ;;
  let allowedPlanIds : gset (option Value) :=
    list_to_set ((λ p : Row, p !! "id") <$> plans) in
  jobs <- db.select LessonJobs (eq_ "userId" (VText (user_id user))) ;;
  let status := VText ∘ JobStatus_str <$> (input ≫= ListJobs.status) in
  let filtered :=
    filter (λ job : Row, matchesPlan allowedPlanIds job && matchesStatus status job) jobs in
  ret filtered.

(** ** The input schemas and [defineAction] *)

Module z.
(** [z.string().min(1)] *)
Definition nonEmpty (s : string) : bool := negb (String.eqb s "").
(** [z.number().int().positive()] *)
Definition positive (n : Z) : bool := Z.ltb 0 n.
(** [.optional()] *)
Definition optional {A} (check : A → bool) (a : option A) : bool :=
  match a with
  | Some v => check v
  | None => true
  end.
End z.

Module schema.
Definition createPlan (input : CreatePlan.t) : bool :=
  z.nonEmpty (CreatePlan.title input)
  && z.optional z.positive (CreatePlan.durationMinutes input).

Definition updatePlan (input : UpdatePlan.t) : bool :=
  z.optional z.nonEmpty (UpdatePlan.title input)
  && z.optional z.positive (UpdatePlan.durationMinutes input).

Definition saveObjective (input : SaveObjective.t) : bool :=
  z.nonEmpty (SaveObjective.text input)
  && z.optional z.positive (SaveObjective.order input).

Definition saveStep (input : SaveStep.t) : bool :=
  z.nonEmpty (SaveStep.description input)
  && z.optional z.positive (SaveStep.durationMinutes input)
  && z.optional z.positive (SaveStep.order input).

(** [isUrl] stands for [z.string().url()], which is the validator's own. *)
Definition saveMaterial (isUrl : string → bool) (input : SaveMaterial.t) : bool :=
  z.nonEmpty (SaveMaterial.name input)
  && z.optional isUrl (SaveMaterial.url input).
End schema.

(** [defineAction({ input, handler })]: the handler runs on an input the
    schema accepts.  A schema with no constraint beyond its types is absent. *)
Definition defineAction {I O} (accepts : I → bool) (handler : I → Action O) (input : I) :
    Action O :=
  if accepts input then handler input else throw BAD_REQUEST.

(** ** Calls against the server *)

Inductive Request :=
| CreatePlanReq (input : CreatePlan.t)
| UpdatePlanReq (input : UpdatePlan.t)
| ArchivePlanReq (input : ArchivePlan.t)
| ListMyPlansReq (input : option ListMyPlans.t)
| GetPlanWithDetailsReq (input : GetPlanWithDetails.t)
| SaveObjectiveReq (input : SaveObjective.t)
| DeleteObjectiveReq (input : DeleteChild.t)
| SaveStepReq (input : SaveStep.t)
| DeleteStepReq (input : DeleteChild.t)
| SaveMaterialReq (input : SaveMaterial.t)
| DeleteMaterialReq (input : DeleteChild.t)
| CreateJobReq (input : CreateJob.t)
| UpdateJobReq (input : UpdateJob.t)
| ListJobsReq (input : option ListJobs.t).

Record Call := mkCall {
  caller : Context;
  time : Z;
  request : Request
}.

Section Server.
Variable isUrl : string → bool.

(** The store after one call, whatever the call returns. *)
Definition serve (c : Call) (s : Store) : Store :=
  let context := caller c in
  let now := time c in
  match request c with
  | CreatePlanReq input =>
      (defineAction schema.createPlan (λ i, createPlan i context now) input s).2
  | UpdatePlanReq input =>
      (defineAction schema.updatePlan (λ i, updatePlan i context now) input s).2
  | ArchivePlanReq input => (archivePlan input context now s).2
  | ListMyPlansReq input => (listMyPlans input context s).2
  | GetPlanWithDetailsReq input => (getPlanWithDetails input context s).2
  | SaveObjectiveReq input =>
      (defineAction schema.saveObjective (λ i, saveObjective i context now) input s).2
  | DeleteObjectiveReq input => (deleteObjective input context s).2
  | SaveStepReq input =>
      (defineAction schema.saveStep (λ i, saveStep i context now) input s).2
  | DeleteStepReq input => (deleteStep input context s).2
  | SaveMaterialReq input =>
      (defineAction (schema.saveMaterial isUrl) (λ i, saveMaterial i context now) input s).2
  | DeleteMaterialReq input => (deleteMaterial input context s).2
  | CreateJobReq input => (createJob input context now s).2
  | UpdateJobReq input => (updateJob input context s).2
  | ListJobsReq input => (listJobs input context s).2
  end.

Definition run (calls : list Call) (s : Store) : Store :=
  foldl (λ s c, serve c s) s calls.
End Server.

(** ** Predicates of the statements *)

(** The caller owns a plan with this id. *)
Definition owns (s : Store) (user : User) (planId : Z) : Prop :=
  ∃ plan : Row, plan ∈ rows (plans s) ∧ ownedPlan planId user plan.

(** The plan [id] exists and is archived. *)
Definition archivedPlan (s : Store) (id : Z) : Prop :=
  (∃ plan : Row, plan ∈ rows (plans s) ∧ plan !! "id" = Some (VNum id)) ∧
  ∀ plan : Row, plan ∈ rows (plans s) → plan !! "id" = Some (VNum id) →
                plan !! "status" = Some (VText "archived").

(** A call that sets the status of plan [id] to draft or published. *)
Definition reopens (id : Z) (req : Request) : Prop :=
  match req with
  | UpdatePlanReq input =>
      UpdatePlan.id input = id ∧
      (UpdatePlan.status input = Some draft ∨ UpdatePlan.status input = Some published)
  | _ => False
  end.

(** A job that belongs to no plan: its [planId] is NULL. *)
Definition planless (job : Row) : Prop := job !! "planId" = Some VNull.

(** No row of the materials table has an [order] member. *)
Definition noOrder (s : Store) : Prop :=
  ∀ r : Row, r ∈ rows (materials s) → r !! "order" = None.

#[global] Instance owns_dec s user planId : Decision (owns s user planId).
Proof.
  refine (cast_if (decide (Exists (ownedPlan planId user) (rows (plans s)))));
    unfold owns; by rewrite <- Exists_exists.
Defined.

#[global] Instance archivedPlan_dec s id : Decision (archivedPlan s id).
Proof.
  refine (cast_if_and
            (decide (Exists (λ plan : Row, plan !! "id" = Some (VNum id)) (rows (plans s))))
            (decide (Forall (λ plan : Row, plan !! "id" = Some (VNum id) →
                                           plan !! "status" = Some (VText "archived"))
                            (rows (plans s)))));
    unfold archivedPlan; rewrite <- ?Exists_exists, <- ?Forall_forall; tauto.
Defined.

#[global] Instance reopens_dec id req : Decision (reopens id req).
Proof. destruct req; cbn; apply _. Defined.

(** ** Invariants of the store *)

(** The action keeps [I], whatever it returns. *)
Definition preserves {A} (I : Store → Prop) (m : Action A) : Prop :=
  ∀ s, I s → I (m s).2.

(** [I] reads one table only. *)
Definition local (t : TableName) (I : Store → Prop) : Prop :=
  ∀ s s', table t s = table t s' → I s → I s'.

(** ** Objects, member by member *)

(** [o[k]] on the list of members of an object literal. *)
Fixpoint member (k : string) (members : list (string * option Value)) : option Value :=
  match members with
  | [] => None
  | (k', o) :: rest =>
      if decide (k = k')
      then match o with
           | Some v => Some v
           | None => member k rest
           end
      else member k rest
  end.

(** The [values] object of [createJob]. *)
Definition jobValues (input : CreateJob.t) (user : User) (now : Z) : Row :=
  obj [ ("planId", VNum <$> CreateJob.planId input);
        ("userId", Some (VText (user_id user)));
        ("jobType", Some (VText ((JobType_str <$> CreateJob.jobType input) ?? "full")));
        ("input", VJson <$> CreateJob.input input);
        ("output", VJson <$> CreateJob.output input);
        ("status", Some (VText ((JobStatus_str <$> CreateJob.status input) ?? "pending")));
        ("createdAt", Some (VDate now)) ].

(** ** A classroom *)

Definition alice : User := mkUser "alice".
Definition bob : User := mkUser "bob".

Definition anyUrl : string → bool := λ _, true.

(** Alice creates the plan "Photosynthesis" (id 1) with one objective, one
    step and one material (each of id 1), a job without a plan (id 1), a job
    for the plan (id 2), and a second plan "Respiration" (id 2). *)
Definition classroom : Store :=
  run anyUrl
    [ mkCall (Some alice) 10
        (CreatePlanReq (CreatePlan.mk "Photosynthesis" None None None None None None));
      mkCall (Some alice) 11
        (SaveObjectiveReq (SaveObjective.mk None 1 "Name the inputs" None));
      mkCall (Some alice) 12
        (SaveStepReq (SaveStep.mk None 1 None "Introduction" None None));
      mkCall (Some alice) 13
        (SaveMaterialReq (SaveMaterial.mk None 1 "Slides" None None));
      mkCall (Some alice) 14 (CreateJobReq (CreateJob.mk None None None None None));
      mkCall (Some alice) 15
        (CreateJobReq (CreateJob.mk (Some 1) (Some outline) None None None));
      mkCall (Some alice) 16
        (CreatePlanReq (CreatePlan.mk "Respiration" None None None None None None)) ]
    emptyStore.

(** The classroom once Alice has archived "Photosynthesis". *)
Definition archive : Store :=
  run anyUrl [ mkCall (Some alice) 20 (ArchivePlanReq (ArchivePlan.mk 1)) ] classroom.

(** The [n]-th row of a table, the empty object when there is none. *)
Definition rowAt (d : TableData) (n : nat) : Row := rows d !!! n.

Definition photosynthesis : Row := rowAt (plans classroom) 0.
Definition firstObjective : Row := rowAt (objectives classroom) 0.
Definition planlessJob : Row := rowAt (jobs classroom) 0.
Definition outlineJob : Row := rowAt (jobs classroom) 1.

(** The row a save returns, the empty object when it returns none. *)
Definition returned (r : Result (option Row) * Store) : Row :=
  match r.1 with
  | Ok (Some row) => row
  | _ => ∅
  end.

(** ** Tactics *)

(** Runs the monad: unfolds the binds and the queries of a handler. *)
Ltac step :=
  cbv beta iota zeta delta
    [bind ret throw requireUser db.select db.update db.delete db.insert];
  change (table LessonPlans) with plans;
  change (table LessonJobs) with jobs.

(** Settles a closed decidable statement by evaluating its decision. *)
Ltac by_evaluation := apply (bool_decide_unpack _); vm_compute; exact I.

(** A statement over every row of a concrete table. *)
Ltac by_evaluation_on_rows := refine (proj1 (Forall_forall _ _) _); by_evaluation.

(** * Properties *)

(** ** Lists and the store *)

Section ListFacts.
Context {A : Type} (P : A → Prop) `{∀ x, Decision (P x)}.

Lemma head_limit_1 (l : list A) : head (limit 1 l) = head l.
Proof. by destruct l. Qed.

Lemma filter_none (l : list A) : (∀ x, x ∈ l → ¬ P x) → filter P l = [].
Proof.
  intros Hl. induction l as [|x l IH]; [done|].
  rewrite filter_cons_False; [|apply Hl; left].
  apply IH. intros y Hy. apply Hl. by right.
Qed.

Lemma filter_some (l : list A) x :
  x ∈ l → P x → ∃ y, head (filter P l) = Some y ∧ y ∈ l ∧ P y.
Proof.
  intros Hx HP.
  destruct (filter P l) as [|y l'] eqn:E.
  - exfalso. eapply (filter_nil_not_elem_of P); eauto.
  - exists y. split; [done|].
    assert (y ∈ filter P l) as Hy by (rewrite E; left).
    apply list_elem_of_filter in Hy. tauto.
Qed.

(** A key that identifies one row selects that row. *)
Lemma unique_head (l : list A) x :
  x ∈ l → P x → (∀ y, y ∈ l → P y → y = x) → head (filter P l) = Some x.
Proof.
  intros Hin HP Huniq.
  destruct (filter_some l x Hin HP) as (y & -> & Hy & HPy).
  f_equal. by apply Huniq.
Qed.

Lemma filter_not_all (l : list A) : filter P l = [] → filter (λ x, ¬ P x) l = l.
Proof.
  intros E. induction l as [|x l IH]; [done|].
  rewrite filter_cons in E. destruct (decide (P x)) as [HP|HP]; [done|].
  rewrite filter_cons_True; [|done]. f_equal. by apply IH.
Qed.

Lemma filter_filter_not (l : list A) : filter P (filter (λ x, ¬ P x) l) = [].
Proof.
  apply filter_none. intros x Hx. apply list_elem_of_filter in Hx. tauto.
Qed.
End ListFacts.

Lemma table_set_table t d s : table t (set_table t d s) = d.
Proof. by destruct t. Qed.

Lemma table_set_table_ne t t' d s : t ≠ t' → table t' (set_table t d s) = table t' s.
Proof. by destruct t, t'. Qed.

Lemma set_table_twice t d d' s : set_table t d (set_table t d' s) = set_table t d s.
Proof. by destruct t. Qed.

(** ** Generated keys are fresh *)

Lemma maxId_bound (m : Z) (l : list Row) (r : Row) (n : Z) :
  r ∈ l → r !! "id" = Some (VNum n) → (n ≤ db.maxId m l)%Z.
Proof.
  induction l as [|r' l IH]; intros Hin Hid.
  - by apply elem_of_nil in Hin.
  - apply elem_of_cons in Hin as [->|Hin]; simpl.
    + rewrite Hid. lia.
    + specialize (IH Hin Hid). destruct (r' !! "id") as [[]|]; lia.
Qed.

Lemma newRow_id t now id values : db.newRow t now id values !! "id" = Some (VNum id).
Proof. destruct t; reflexivity. Qed.

Lemma newRow_fresh t now values (d : TableData) (r : Row) :
  r ∈ rows d → r !! "id" ≠ db.newRow t now (db.nextId d) values !! "id".
Proof.
  intros Hin Heq. rewrite newRow_id in Heq.
  pose proof (maxId_bound (sequence d) _ _ _ Hin Heq). unfold db.nextId in *. lia.
Qed.

(** ** Object literals *)

Lemma lookup_obj k members : obj members !! k = member k members.
Proof.
  induction members as [|[k' [v|]] rest IH]; cbn [obj member].
  - apply lookup_empty.
  - rewrite lookup_insert. destruct (decide (k' = k)), (decide (k = k')); congruence.
  - rewrite IH. by destruct (decide (k = k')).
Qed.

Lemma truthy_PlanStatus st : truthy (Some (VText (PlanStatus_str st))) = true.
Proof. by destruct st. Qed.

Lemma truthy_JobStatus st : truthy (Some (VText (JobStatus_str st))) = true.
Proof. by destruct st. Qed.

(** ** The ownership check *)

Lemma select_not_owned s user planId :
  ¬ owns s user planId → filter (ownedPlan planId user) (rows (plans s)) = [].
Proof.
  intros Hno. apply filter_none. intros plan Hin Hp. apply Hno. by exists plan.
Qed.

Lemma select_owned s user planId :
  owns s user planId →
  ∃ plan, head (filter (ownedPlan planId user) (rows (plans s))) = Some plan.
Proof.
  intros (plan & Hin & Hp).
  destruct (filter_some (ownedPlan planId user) _ plan Hin Hp) as (y & Hy & _).
  by exists y.
Qed.

Lemma saveChild_not_owned t id planId baseValues user now s :
  ¬ owns s user planId →
  saveChild t id planId baseValues (Some user) now s = (Err NOT_FOUND, s).
Proof.
  intros Hno. unfold saveChild. step.
  rewrite head_limit_1, (select_not_owned _ _ _ Hno). reflexivity.
Qed.

Lemma deleteChild_not_owned t input user s :
  ¬ owns s user (DeleteChild.planId input) →
  deleteChild t input (Some user) s = (Err NOT_FOUND, s).
Proof.
  intros Hno. unfold deleteChild. step.
  rewrite head_limit_1, (select_not_owned _ _ _ Hno). reflexivity.
Qed.

(** C2.  A caller who owns no plan with the id [planId] cannot save or delete
    an objective, a step or a material under that [planId]: each of the six
    handlers throws NOT_FOUND and the store is the one it was called on, for
    every store, so whether or not the child row exists. *)
Theorem child_mutation_of_foreign_plan_not_found (s : Store) (user : User) (planId : Z) :
  ¬ owns s user planId →
  (∀ input now, SaveObjective.planId input = planId →
     saveObjective input (Some user) now s = (Err NOT_FOUND, s)) ∧
  (∀ input now, SaveStep.planId input = planId →
     saveStep input (Some user) now s = (Err NOT_FOUND, s)) ∧
  (∀ input now, SaveMaterial.planId input = planId →
     saveMaterial input (Some user) now s = (Err NOT_FOUND, s)) ∧
  (∀ input, DeleteChild.planId input = planId →
     deleteObjective input (Some user) s = (Err NOT_FOUND, s) ∧
     deleteStep input (Some user) s = (Err NOT_FOUND, s) ∧
     deleteMaterial input (Some user) s = (Err NOT_FOUND, s)).
Proof.
  intros Hno. repeat split; intros; subst planId;
    first [ by apply saveChild_not_owned | by apply deleteChild_not_owned ].
Qed.

(** Bob against the objective of Alice's plan, which exists, and against an
    objective that does not. *)
Lemma child_mutation_of_foreign_plan_witness :
  ¬ owns classroom bob 1 ∧
  saveObjective (SaveObjective.mk (Some 1) 1 "Mine now" None) (Some bob) 40 classroom
  = (Err NOT_FOUND, classroom) ∧
  deleteObjective (DeleteChild.mk 1 1) (Some bob) classroom = (Err NOT_FOUND, classroom) ∧
  deleteMaterial (DeleteChild.mk 7 1) (Some bob) classroom = (Err NOT_FOUND, classroom).
Proof.
  assert (Hno : ¬ owns classroom bob 1) by by_evaluation.
  destruct (child_mutation_of_foreign_plan_not_found classroom bob 1 Hno)
    as (Hobjective & _ & _ & Hdelete).
  split; [exact Hno|]. split; [by apply Hobjective|].
  split; [by apply (Hdelete (DeleteChild.mk 1 1)) | by apply (Hdelete (DeleteChild.mk 7 1))].
Defined.

(** ** Saving under another plan *)

Lemma saveChild_cross_plan t i planId baseValues user now s :
  i ≠ 0 →
  (∀ r : Row, r ∈ rows (table t s) → r !! "id" = Some (VNum i) →
              r !! "planId" ≠ Some (VNum planId)) →
  saveChild t (Some i) planId baseValues (Some user) now s = (Err NOT_FOUND, s).
Proof.
  intros Hi Hother. unfold saveChild. step.
  rewrite head_limit_1.
  destruct (head (filter (ownedPlan planId user) (rows (plans s)))) as [plan|]; [|done].
  unfold truthy. destruct (Z.eqb_spec i 0) as [|_]; [done|]. cbn [negb].
  rewrite head_limit_1.
  destruct (head (filter (eq_ "id" (VNum i)) (rows (table t s)))) as [existing|] eqn:E;
    [|done].
  apply head_Some_elem_of, list_elem_of_filter in E as [Hid Hin].
  rewrite decide_True; [done|]. by apply Hother.
Qed.

(** C6.  A save that names a child by a non-zero id whose stored [planId] is
    not the [planId] of the input throws NOT_FOUND and leaves the store as it
    was, for objectives, steps and materials alike, whoever owns the plan of
    the input. *)
Theorem save_cross_plan_not_found (s : Store) (user : User) (now i planId : Z) :
  i ≠ 0 →
  (∀ input,
     SaveObjective.id input = Some i → SaveObjective.planId input = planId →
     (∀ r : Row, r ∈ rows (objectives s) → r !! "id" = Some (VNum i) →
                 r !! "planId" ≠ Some (VNum planId)) →
     saveObjective input (Some user) now s = (Err NOT_FOUND, s)) ∧
  (∀ input,
     SaveStep.id input = Some i → SaveStep.planId input = planId →
     (∀ r : Row, r ∈ rows (steps s) → r !! "id" = Some (VNum i) →
                 r !! "planId" ≠ Some (VNum planId)) →
     saveStep input (Some user) now s = (Err NOT_FOUND, s)) ∧
  (∀ input,
     SaveMaterial.id input = Some i → SaveMaterial.planId input = planId →
     (∀ r : Row, r ∈ rows (materials s) → r !! "id" = Some (VNum i) →
                 r !! "planId" ≠ Some (VNum planId)) →
     saveMaterial input (Some user) now s = (Err NOT_FOUND, s)).
Proof.
  intros Hi. repeat split; intros input Hid Hplan Hother.
  - unfold saveObjective. rewrite Hid, Hplan. by apply saveChild_cross_plan.
  - unfold saveStep. rewrite Hid, Hplan. by apply saveChild_cross_plan.
  - unfold saveMaterial. rewrite Hid, Hplan. by apply saveChild_cross_plan.
Qed.

(** Alice owns both plans; her objective 1 belongs to plan 1 and is saved
    under plan 2. *)
Lemma save_cross_plan_witness :
  owns classroom alice 2 ∧
  firstObjective ∈ rows (objectives classroom) ∧
  firstObjective !! "id" = Some (VNum 1) ∧
  saveObjective (SaveObjective.mk (Some 1) 2 "Moved" None) (Some alice) 40 classroom
  = (Err NOT_FOUND, classroom).
Proof.
  split; [by_evaluation|]. split; [by_evaluation|]. split; [by_evaluation|].
  assert (Hi : 1 ≠ 0) by lia.
  destruct (save_cross_plan_not_found classroom alice 40 1 2 Hi) as (Hobjective & _).
  apply Hobjective; [reflexivity | reflexivity | by_evaluation_on_rows].
Defined.

(** ** The id zero *)

Lemma saveChild_create t planId baseValues user now s :
  owns s user planId →
  saveChild t None planId baseValues (Some user) now s
  = (Ok (Some (db.newRow t now (db.nextId (table t s)) baseValues)),
     set_table t (mkTable (rows (table t s)
                           ++ [db.newRow t now (db.nextId (table t s)) baseValues])
                          (db.nextId (table t s))) s).
Proof.
  intros Hown. unfold saveChild. step. rewrite head_limit_1.
  destruct (select_owned _ _ _ Hown) as [plan ->]. reflexivity.
Qed.

Lemma saveChild_id_zero t planId baseValues user now s :
  owns s user planId →
  ∃ row : Row,
    saveChild t (Some 0) planId baseValues (Some user) now s
    = (Ok (Some row),
       set_table t (mkTable (rows (table t s) ++ [row]) (db.nextId (table t s))) s) ∧
    ∀ r : Row, r ∈ rows (table t s) → r !! "id" ≠ row !! "id".
Proof.
  intros Hown. eexists. split.
  - change (saveChild t (Some 0) planId baseValues (Some user) now s)
      with (saveChild t None planId baseValues (Some user) now s).
    by apply saveChild_create.
  - intros r. apply newRow_fresh.
Qed.

(** C10.  A save whose input carries the id 0 runs as the save without an id:
    the two calls are the same action, and for a caller who owns the plan it
    returns a row, appends that row to the table and gives it an id no other
    row of the table has; no row is looked up and NOT_FOUND is not thrown. *)
Theorem save_with_id_zero_creates (s : Store) (user : User) (now : Z) :
  (∀ planId text order,
     (∀ context,
        saveObjective (SaveObjective.mk (Some 0) planId text order) context now s
        = saveObjective (SaveObjective.mk None planId text order) context now s) ∧
     (owns s user planId →
      ∃ row : Row,
        saveObjective (SaveObjective.mk (Some 0) planId text order) (Some user) now s
        = (Ok (Some row),
           set_table LessonObjectives
             (mkTable (rows (objectives s) ++ [row]) (db.nextId (objectives s))) s) ∧
        ∀ r : Row, r ∈ rows (objectives s) → r !! "id" ≠ row !! "id")) ∧
  (∀ planId title description durationMinutes order,
     (∀ context,
        saveStep (SaveStep.mk (Some 0) planId title description durationMinutes order)
          context now s
        = saveStep (SaveStep.mk None planId title description durationMinutes order)
            context now s) ∧
     (owns s user planId →
      ∃ row : Row,
        saveStep (SaveStep.mk (Some 0) planId title description durationMinutes order)
          (Some user) now s
        = (Ok (Some row),
           set_table LessonSteps
             (mkTable (rows (steps s) ++ [row]) (db.nextId (steps s))) s) ∧
        ∀ r : Row, r ∈ rows (steps s) → r !! "id" ≠ row !! "id")) ∧
  (∀ planId name type url,
     (∀ context,
        saveMaterial (SaveMaterial.mk (Some 0) planId name type url) context now s
        = saveMaterial (SaveMaterial.mk None planId name type url) context now s) ∧
     (owns s user planId →
      ∃ row : Row,
        saveMaterial (SaveMaterial.mk (Some 0) planId name type url) (Some user) now s
        = (Ok (Some row),
           set_table LessonMaterials
             (mkTable (rows (materials s) ++ [row]) (db.nextId (materials s))) s) ∧
        ∀ r : Row, r ∈ rows (materials s) → r !! "id" ≠ row !! "id")).
Proof.
  repeat split; try reflexivity; intros Hown.
  - by apply (saveChild_id_zero LessonObjectives).
  - by apply (saveChild_id_zero LessonSteps).
  - by apply (saveChild_id_zero LessonMaterials).
Qed.

(** The schema accepts the input, and Alice's table of objectives grows from
    one row to two. *)
Lemma save_with_id_zero_witness :
  schema.saveObjective (SaveObjective.mk (Some 0) 1 "Explain the light reactions" None)
  = true ∧
  owns classroom alice 1 ∧
  ∃ row : Row,
    saveObjective (SaveObjective.mk (Some 0) 1 "Explain the light reactions" None)
      (Some alice) 40 classroom
    = (Ok (Some row),
       set_table LessonObjectives
         (mkTable (rows (objectives classroom) ++ [row])
                  (db.nextId (objectives classroom))) classroom) ∧
    ∀ r : Row, r ∈ rows (objectives classroom) → r !! "id" ≠ row !! "id".
Proof.
  split; [reflexivity|].
  assert (Hown : owns classroom alice 1) by by_evaluation.
  split; [exact Hown|].
  destruct (save_with_id_zero_creates classroom alice 40) as (Hobjective & _).
  destruct (Hobjective 1 "Explain the light reactions" None) as (_ & Hcreate).
  exact (Hcreate Hown).
Defined.

(** ** Deleting twice *)

Lemma deleteChild_twice t input user s row s' :
  t ≠ LessonPlans →
  deleteChild t input (Some user) s = (Ok row, s') →
  deleteChild t input (Some user) s' = (Err NOT_FOUND, s').
Proof.
  intros Ht. unfold deleteChild. step. rewrite !head_limit_1.
  destruct (head (filter _ (rows (plans s)))) as [plan|] eqn:Eplan; [|done].
  destruct (head (filter _ (rows (table t s)))) as [deleted|]; [|done].
  intros [= _ <-].
  change (plans (set_table t ?d s)) with (table LessonPlans (set_table t d s)).
  rewrite table_set_table_ne by done. change (table LessonPlans s) with (plans s).
  rewrite Eplan, table_set_table. cbn [rows sequence].
  rewrite filter_filter_not. cbn [head].
  rewrite set_table_twice. do 2 f_equal. f_equal.
  apply filter_not_all, filter_filter_not.
Qed.

(** C9.  A delete that succeeded does not succeed again: the same call on the
    store the first one left behind throws NOT_FOUND and leaves that store as
    it is, for objectives, steps and materials. *)
Theorem delete_twice_not_found (input : DeleteChild.t) (user : User) (s s' : Store)
    (row : Row) :
  (deleteObjective input (Some user) s = (Ok row, s') →
   deleteObjective input (Some user) s' = (Err NOT_FOUND, s')) ∧
  (deleteStep input (Some user) s = (Ok row, s') →
   deleteStep input (Some user) s' = (Err NOT_FOUND, s')) ∧
  (deleteMaterial input (Some user) s = (Ok row, s') →
   deleteMaterial input (Some user) s' = (Err NOT_FOUND, s')).
Proof. repeat split; by apply deleteChild_twice. Qed.

(** Alice deletes her objective, then deletes it again. *)
Lemma delete_twice_witness :
  let first := deleteObjective (DeleteChild.mk 1 1) (Some alice) classroom in
  first = (Ok firstObjective, first.2) ∧
  deleteObjective (DeleteChild.mk 1 1) (Some alice) first.2 = (Err NOT_FOUND, first.2).
Proof.
  intros first.
  assert (Hfirst : first = (Ok firstObjective, first.2)) by by_evaluation.
  split; [exact Hfirst|].
  destruct (delete_twice_not_found (DeleteChild.mk 1 1) alice classroom first.2
              firstObjective) as (Hobjective & _).
  exact (Hobjective Hfirst).
Defined.

(** ** Updates without fields *)

Lemma updatePlan_no_fields_store id context now s :
  (updatePlan (UpdatePlan.mk id None None None None None None None) context now s).2 = s.
Proof.
  unfold updatePlan. destruct context as [user|]; step; [|done].
  by destruct (head _).
Qed.

Lemma updateJob_no_fields_store id context s :
  (updateJob (UpdateJob.mk id None None) context s).2 = s.
Proof.
  unfold updateJob. destruct context as [user|]; step; [|done].
  by destruct (head _).
Qed.

Lemma updatePlan_no_fields_result id user now s (existing : Row) :
  existing ∈ rows (plans s) → ownedPlan id user existing →
  (∀ r : Row, r ∈ rows (plans s) → ownedPlan id user r → r = existing) →
  updatePlan (UpdatePlan.mk id None None None None None None None) (Some user) now s
  = (Ok (Some existing), s).
Proof.
  intros Hin Hown Huniq. unfold updatePlan. step. rewrite head_limit_1.
  by rewrite (unique_head _ _ _ Hin Hown Huniq).
Qed.

Lemma updateJob_no_fields_result id user s (existing : Row) :
  existing ∈ rows (jobs s) →
  existing !! "id" = Some (VNum id) → existing !! "userId" = Some (VText (user_id user)) →
  (∀ r : Row, r ∈ rows (jobs s) → r !! "id" = Some (VNum id) → r = existing) →
  updateJob (UpdateJob.mk id None None) (Some user) s = (Ok (Some existing), s).
Proof.
  intros Hin Hid Huser Huniq. unfold updateJob. step. rewrite head_limit_1.
  rewrite (unique_head _ _ existing Hin); [done|by split|].
  intros r Hr [Hrid _]. by apply Huniq.
Qed.

(** C5.  [updatePlan] with none of its seven optional members and [updateJob]
    with neither [output] nor [status] leave the store as it was, whoever
    calls and whatever they return; called by the owner they return the stored
    row itself, with the [updatedAt] it had. *)
Theorem update_without_fields_noop (id : Z) (user : User) (now : Z) (s : Store) :
  (∀ context,
     (updatePlan (UpdatePlan.mk id None None None None None None None) context now s).2 = s ∧
     (updateJob (UpdateJob.mk id None None) context s).2 = s) ∧
  (∀ existing : Row,
     existing ∈ rows (plans s) → ownedPlan id user existing →
     (∀ r : Row, r ∈ rows (plans s) → ownedPlan id user r → r = existing) →
     updatePlan (UpdatePlan.mk id None None None None None None None) (Some user) now s
     = (Ok (Some existing), s)) ∧
  (∀ existing : Row,
     existing ∈ rows (jobs s) →
     existing !! "id" = Some (VNum id) →
     existing !! "userId" = Some (VText (user_id user)) →
     (∀ r : Row, r ∈ rows (jobs s) → r !! "id" = Some (VNum id) → r = existing) →
     updateJob (UpdateJob.mk id None None) (Some user) s = (Ok (Some existing), s)).
Proof.
  split; [|split].
  - intros context. split; [apply updatePlan_no_fields_store | apply updateJob_no_fields_store].
  - apply updatePlan_no_fields_result.
  - apply updateJob_no_fields_result.
Qed.

(** Alice updates "Photosynthesis", created at time 10, with no fields at
    time 99. *)
Lemma update_without_fields_witness :
  photosynthesis ∈ rows (plans classroom) ∧
  ownedPlan 1 alice photosynthesis ∧
  photosynthesis !! "updatedAt" = Some (VDate 10) ∧
  updatePlan (UpdatePlan.mk 1 None None None None None None None) (Some alice) 99 classroom
  = (Ok (Some photosynthesis), classroom).
Proof.
  assert (Hin : photosynthesis ∈ rows (plans classroom)) by by_evaluation.
  assert (Hown : ownedPlan 1 alice photosynthesis) by by_evaluation.
  split; [exact Hin|]. split; [exact Hown|]. split; [by_evaluation|].
  destruct (update_without_fields_noop 1 alice 99 classroom) as (_ & Hplan & _).
  apply Hplan; [exact Hin | exact Hown | by_evaluation_on_rows].
Defined.

(** ** Listing plans *)

Lemma listMyPlans_result user input s :
  ∃ result, listMyPlans input (Some user) s = (Ok result, s) ∧
    ∀ plan : Row,
      plan ∈ result ↔
      plan ∈ rows (plans s) ∧ plan !! "ownerId" = Some (VText (user_id user)) ∧
      match input ≫= ListMyPlans.status with
      | Some st => plan !! "status" = Some (VText (PlanStatus_str st))
      | None => True
      end.
Proof.
  unfold listMyPlans. step. eexists. split; [reflexivity|]. intros plan.
  destruct (input ≫= ListMyPlans.status) as [st|]; cbn [fmap option_fmap option_map].
  - unfold compose. rewrite truthy_PlanStatus.
    rewrite !list_elem_of_filter. unfold eq_. tauto.
  - cbn [truthy]. rewrite list_elem_of_filter. unfold eq_. tauto.
Qed.

(** C7.  [listMyPlans] returns to its caller, without changing the store, a
    list in which every plan has the caller's id as [ownerId], so no plan of
    another user; its members are exactly the caller's stored plans, and under
    a status filter exactly those of them whose status is the filter's. *)
Theorem listMyPlans_only_callers_plans (user : User) (input : option ListMyPlans.t)
    (s : Store) :
  ∃ result, listMyPlans input (Some user) s = (Ok result, s) ∧
    (∀ (plan : Row) (owner : string),
       plan ∈ result → plan !! "ownerId" = Some (VText owner) → owner = user_id user) ∧
    (∀ plan : Row,
       plan ∈ result ↔
       plan ∈ rows (plans s) ∧ plan !! "ownerId" = Some (VText (user_id user)) ∧
       match input ≫= ListMyPlans.status with
       | Some st => plan !! "status" = Some (VText (PlanStatus_str st))
       | None => True
       end).
Proof.
  destruct (listMyPlans_result user input s) as (result & E & Hresult).
  exists result. split; [done|]. split; [|done].
  intros plan owner Hin Howner. apply Hresult in Hin as (_ & Hmine & _). congruence.
Qed.

(** Bob lists his draft plans in Alice's classroom: "Photosynthesis" is a
    stored draft, and not in his list. *)
Lemma listMyPlans_witness :
  photosynthesis ∈ rows (plans classroom) ∧
  photosynthesis !! "status" = Some (VText "draft") ∧
  ∃ result,
    listMyPlans (Some (ListMyPlans.mk (Some draft))) (Some bob) classroom
    = (Ok result, classroom) ∧
    photosynthesis ∉ result.
Proof.
  split; [by_evaluation|]. split; [by_evaluation|].
  destruct (listMyPlans_only_callers_plans bob (Some (ListMyPlans.mk (Some draft))) classroom)
    as (result & E & Honly & _).
  exists result. split; [exact E|].
  intros Hin. specialize (Honly photosynthesis "alice" Hin).
  assert (Howner : photosynthesis !! "ownerId" = Some (VText "alice")) by by_evaluation.
  specialize (Honly Howner). discriminate Honly.
Defined.

(** ** Listing jobs *)

(** C1, as the code has it.  Alice owns plan 1; her job without a plan has a
    NULL [planId]; [listJobs] filtered by plan 1 returns that job, ahead of
    the job of plan 1. *)
Lemma listJobs_planless_kept_under_filter :
  owns classroom alice 1 ∧
  planless planlessJob ∧
  outlineJob !! "planId" = Some (VNum 1) ∧
  listJobs (Some (ListJobs.mk (Some 1) None)) (Some alice) classroom
  = (Ok [planlessJob; outlineJob], classroom).
Proof. repeat split; by_evaluation. Qed.

(** C1, amended.  A job of the caller whose [planId] is NULL is in the result
    of [listJobs] whether or not a [planId] filter is requested: under no
    filter, and under the filter of any plan the caller owns, provided the job
    has the requested status when a status is requested.  The store is
    unchanged. *)
Theorem listJobs_includes_planless (user : User) (input : option ListJobs.t)
    (s : Store) (job : Row) :
  (∀ p, input ≫= ListJobs.planId = Some p → owns s user p) →
  job ∈ rows (jobs s) →
  job !! "userId" = Some (VText (user_id user)) →
  planless job →
  (∀ st, input ≫= ListJobs.status = Some st →
         job !! "status" = Some (VText (JobStatus_str st))) →
  ∃ result, listJobs input (Some user) s = (Ok result, s) ∧ job ∈ result.
Proof.
  intros Hown Hin Huser Hnull Hstatus. unfold listJobs. step.
  set (planId := VNum <$> (input ≫= ListJobs.planId)).
  set (mine := filter (eq_ "ownerId" (VText (user_id user))) (rows (plans s))).
  assert (Hjob : ∀ allowed,
             job ∈ filter (λ job : Row,
                             matchesPlan allowed job
                             && matchesStatus (VText ∘ JobStatus_str <$>
                                                 (input ≫= ListJobs.status)) job)
                          (filter (eq_ "userId" (VText (user_id user))) (rows (jobs s)))).
  { intros allowed. rewrite !list_elem_of_filter. split; [|by split].
    apply andb_True. split.
    - unfold matchesPlan. unfold planless in Hnull. by rewrite Hnull.
    - unfold matchesStatus. destruct (input ≫= ListJobs.status) as [st|]; [|done].
      cbn [fmap option_fmap option_map compose]. rewrite truthy_JobStatus.
      apply bool_decide_spec. by apply Hstatus. }
  destruct (truthy planId) eqn:Ht.
  - destruct (input ≫= ListJobs.planId) as [p|] eqn:Ep; [|done].
    destruct (Hown p eq_refl) as (plan & Hplan & Hid & Howner).
    assert (plan ∈ filter (λ p0 : Row, p0 !! "id" = planId) mine) as Hne.
    { subst mine. rewrite !list_elem_of_filter. done. }
    destruct (filter (λ p0 : Row, p0 !! "id" = planId) mine) as [|x l] eqn:E.
    + by apply elem_of_nil in Hne.
    + rewrite decide_False by done. eexists. split; [reflexivity|]. apply Hjob.
  - eexists. split; [reflexivity|]. apply Hjob.
Qed.

(** Alice lists the pending jobs of plan 1. *)
Lemma listJobs_includes_planless_witness :
  ∃ result,
    listJobs (Some (ListJobs.mk (Some 1) (Some pending))) (Some alice) classroom
    = (Ok result, classroom) ∧
    planlessJob ∈ result.
Proof.
  apply (listJobs_includes_planless alice (Some (ListJobs.mk (Some 1) (Some pending)))
           classroom planlessJob).
  - intros p [= <-]. by_evaluation.
  - by_evaluation.
  - by_evaluation.
  - by_evaluation.
  - intros st [= <-]. by_evaluation.
Defined.

(** ** Creating jobs *)

Lemma job_row_defaults now id (input : CreateJob.t) (user : User) :
  let job := db.newRow LessonJobs now id (jobValues input user now) in
  job !! "jobType" = Some (VText ((JobType_str <$> CreateJob.jobType input) ?? "full")) ∧
  job !! "status" = Some (VText ((JobStatus_str <$> CreateJob.status input) ?? "pending")).
Proof.
  destruct input as [[p|] jt [i|] [o|] st]; split; reflexivity.
Qed.

Lemma createJob_result input user now s :
  (∀ p, CreateJob.planId input = Some p → p ≠ 0 → owns s user p) →
  let job := db.newRow LessonJobs now (db.nextId (jobs s)) (jobValues input user now) in
  createJob input (Some user) now s
  = (Ok (Some job),
     set_table LessonJobs (mkTable (rows (jobs s) ++ [job]) (db.nextId (jobs s))) s).
Proof.
  intros Hown job. subst job. unfold createJob, jobValues. step.
  destruct (CreateJob.planId input) as [p|]; [|reflexivity].
  unfold truthy. destruct (Z.eqb_spec p 0) as [|Hp]; [reflexivity|]. cbn [negb].
  rewrite head_limit_1.
  destruct (select_owned s user p (Hown p eq_refl Hp)) as [plan ->].
  reflexivity.
Qed.

(** C8.  [createJob], called without a plan or for a plan the caller owns,
    returns a job and appends it to the jobs table; that job has [jobType]
    "full" when the input has none and [status] "pending" when the input has
    none (the table's own default, "completed", is not used). *)
Theorem createJob_defaults (input : CreateJob.t) (user : User) (now : Z) (s : Store) :
  (∀ p, CreateJob.planId input = Some p → owns s user p) →
  ∃ (job : Row) (s' : Store),
    createJob input (Some user) now s = (Ok (Some job), s') ∧
    rows (jobs s') = (rows (jobs s) ++ [job])%list ∧
    (CreateJob.jobType input = None → job !! "jobType" = Some (VText "full")) ∧
    (CreateJob.status input = None → job !! "status" = Some (VText "pending")).
Proof.
  intros Hown. eexists _, _.
  split; [apply createJob_result; intros p Hp _; by apply Hown|].
  destruct (job_row_defaults now (db.nextId (jobs s)) input user) as [Hjt Hst].
  split; [reflexivity|]. split; intros E.
  - rewrite Hjt, E. reflexivity.
  - rewrite Hst, E. reflexivity.
Qed.

(** Alice creates a job for plan 1 and gives neither type nor status. *)
Lemma createJob_defaults_witness :
  owns classroom alice 1 ∧
  ∃ (job : Row) (s' : Store),
    createJob (CreateJob.mk (Some 1) None None None None) (Some alice) 40 classroom
    = (Ok (Some job), s') ∧
    rows (jobs s') = (rows (jobs classroom) ++ [job])%list ∧
    job !! "jobType" = Some (VText "full") ∧
    job !! "status" = Some (VText "pending").
Proof.
  assert (Hown : owns classroom alice 1) by by_evaluation.
  split; [exact Hown|].
  destruct (createJob_defaults (CreateJob.mk (Some 1) None None None None) alice 40 classroom)
    as (job & s' & E & Hrows & Hjt & Hst).
  - intros p [= <-]. exact Hown.
  - exists job, s'. split; [exact E|]. split; [exact Hrows|].
    split; [exact (Hjt eq_refl) | exact (Hst eq_refl)].
Defined.

(** ** Actions that keep an invariant *)

Section Preservation.
Context (I : Store → Prop).

Lemma preserves_ret {A} (a : A) : preserves I (ret a).
Proof. by intros s. Qed.

Lemma preserves_throw {A} code : preserves I (@throw A code).
Proof. by intros s. Qed.

Lemma preserves_bind {A B} (m : Action A) (k : A → Action B) :
  preserves I m → (∀ a, preserves I (k a)) → preserves I (bind m k).
Proof.
  intros Hm Hk s Hs. unfold bind. specialize (Hm s Hs).
  destruct (m s) as [[a|code] s1]; [by apply Hk | done].
Qed.

Lemma preserves_requireUser context : preserves I (requireUser context).
Proof. destruct context; [apply preserves_ret | apply preserves_throw]. Qed.

Lemma preserves_select t c `{∀ r, Decision (c r)} : preserves I (db.select t c).
Proof. by intros s. Qed.

Lemma preserves_defineAction {Input Output} accepts (handler : Input → Action Output)
  input :
  preserves I (handler input) → preserves I (defineAction accepts handler input).
Proof.
  intros Hh. unfold defineAction. destruct (accepts input); [done|apply preserves_throw].
Qed.

Lemma preserves_apply {A} (m : Action A) s : preserves I m → I s → I (m s).2.
Proof. intros Hm. apply Hm. Qed.

(** A write to another table than the one [I] reads. *)
Section Local.
Context (t : TableName) (Hlocal : local t I) (t' : TableName) (Hne : t' ≠ t).

Lemma preserves_insert_other now values : preserves I (db.insert t' now values).
Proof.
  intros s. apply Hlocal. unfold db.insert. cbn [snd].
  by rewrite table_set_table_ne.
Qed.

Lemma preserves_update_other values c `{∀ r, Decision (c r)} :
  preserves I (db.update t' values c).
Proof.
  intros s. apply Hlocal. unfold db.update. cbn [snd].
  by rewrite table_set_table_ne.
Qed.

Lemma preserves_delete_other c `{∀ r, Decision (c r)} : preserves I (db.delete t' c).
Proof.
  intros s. apply Hlocal. unfold db.delete. cbn [snd].
  by rewrite table_set_table_ne.
Qed.
End Local.
End Preservation.

(** Walks down a handler: every bind, branch and read keeps the invariant;
    the writes are left as goals. *)
Ltac preserve :=
  cbv zeta;
  repeat (intros;
    lazymatch goal with
    | |- preserves _ (bind _ _) => apply preserves_bind
    | |- preserves _ (ret _) => apply preserves_ret
    | |- preserves _ (throw _) => apply preserves_throw
    | |- preserves _ (requireUser _) => apply preserves_requireUser
    | |- preserves _ (db.select _ _) => apply preserves_select
    | |- preserves _ (defineAction _ _ _) => apply preserves_defineAction
    | |- preserves _ (match ?x with _ => _ end) => destruct x
    end).

(** The same for a handler that writes to other tables only. *)
Ltac preserve_other Hlocal :=
  preserve;
  first [ eapply preserves_insert_other; [apply Hlocal | done]
        | eapply preserves_update_other; [apply Hlocal | done]
        | eapply preserves_delete_other; [apply Hlocal | done] ].

(** ** Archived plans *)

Lemma local_archivedPlan id : local LessonPlans (λ s, archivedPlan s id).
Proof. intros s s' E. unfold archivedPlan. cbn [table] in E. by rewrite E. Qed.

Lemma archived_insert id now values :
  preserves (λ s, archivedPlan s id) (db.insert LessonPlans now values).
Proof.
  intros s [(plan & Hin & Hid) Hall]. unfold db.insert, archivedPlan.
  cbn [snd table set_table plans rows]. split.
  - exists plan. split; [|done]. apply elem_of_app. by left.
  - intros r Hr Hrid. apply elem_of_app in Hr as [Hr|Hr]; [by apply Hall|].
    apply list_elem_of_singleton in Hr as ->. exfalso.
    apply (newRow_fresh LessonPlans now values (plans s) plan Hin).
    by rewrite Hid, Hrid.
Qed.

(** An update of plans that leaves [id] alone, and that sets no status, or
    the status archived, on the plan [id]. *)
Lemma archived_update id values c `{∀ r, Decision (c r)} :
  values !! "id" = None →
  ((∃ r : Row, c r ∧ r !! "id" = Some (VNum id)) →
   values !! "status" = None ∨ values !! "status" = Some (VText "archived")) →
  preserves (λ s, archivedPlan s id) (db.update LessonPlans values c).
Proof.
  intros Hvid Hvst s [(plan & Hin & Hid) Hall]. unfold db.update, archivedPlan.
  cbn [snd table set_table plans rows].
  assert (Hkeep : ∀ r : Row, (values ∪ r) !! "id" = r !! "id")
    by (intros r; by apply lookup_union_r).
  split.
  - exists (if decide (c plan) then values ∪ plan else plan). split.
    + apply list_elem_of_fmap. by exists plan.
    + destruct (decide (c plan)); [by rewrite Hkeep | done].
  - intros r' Hr' Hid'. apply list_elem_of_fmap in Hr' as (r & -> & Hr).
    destruct (decide (c r)) as [Hc|]; [|by apply Hall].
    rewrite Hkeep in Hid'. specialize (Hall r Hr Hid').
    destruct Hvst as [E|E]; [by exists r | |].
    + by rewrite lookup_union_r.
    + by apply lookup_union_Some_l.
Qed.

Lemma rest_id input : obj (UpdatePlan.rest input) !! "id" = None.
Proof. rewrite lookup_obj. reflexivity. Qed.

Lemma rest_status input :
  obj (UpdatePlan.rest input) !! "status"
  = VText ∘ PlanStatus_str <$> UpdatePlan.status input.
Proof. rewrite lookup_obj. by destruct input as [? ? ? ? ? ? ? [st|]]. Qed.

Lemma archived_updatePlan id input context now :
  ¬ reopens id (UpdatePlanReq input) →
  preserves (λ s, archivedPlan s id) (updatePlan input context now).
Proof.
  intros Hno. unfold updatePlan. preserve.
  apply archived_update.
  - rewrite lookup_insert_ne by done. apply rest_id.
  - intros (r & [Hrid _] & Hid). rewrite lookup_insert_ne by done. rewrite rest_status.
    unfold eq_ in Hrid. assert (UpdatePlan.id input = id) as Hsame by congruence.
    cbn in Hno. destruct (UpdatePlan.status input) as [[]|]; cbn; tauto.
Qed.

Lemma archived_archivePlan id input context now :
  preserves (λ s, archivedPlan s id) (archivePlan input context now).
Proof.
  unfold archivePlan. preserve. apply archived_update; [done|]. intros _. by right.
Qed.

Lemma archived_createPlan id input context now :
  preserves (λ s, archivedPlan s id) (createPlan input context now).
Proof. unfold createPlan. preserve. apply archived_insert. Qed.

Lemma archived_serve isUrl id c s :
  ¬ reopens id (request c) → archivedPlan s id → archivedPlan (serve isUrl c s) id.
Proof.
  intros Hno Hs. unfold serve. destruct (request c); cbv zeta.
  all: refine (preserves_apply (λ s, archivedPlan s id) _ s _ Hs).
  all: preserve.
  - apply archived_createPlan.
  - by apply archived_updatePlan.
  - apply archived_archivePlan.
  - unfold listMyPlans. preserve.
  - unfold getPlanWithDetails. preserve.
  - unfold saveObjective, saveChild. preserve_other (local_archivedPlan id).
  - unfold deleteObjective, deleteChild. preserve_other (local_archivedPlan id).
  - unfold saveStep, saveChild. preserve_other (local_archivedPlan id).
  - unfold deleteStep, deleteChild. preserve_other (local_archivedPlan id).
  - unfold saveMaterial, saveChild. preserve_other (local_archivedPlan id).
  - unfold deleteMaterial, deleteChild. preserve_other (local_archivedPlan id).
  - unfold createJob. preserve_other (local_archivedPlan id).
  - unfold updateJob. preserve_other (local_archivedPlan id).
  - unfold listJobs. preserve.
Qed.

(** C3, as the code has it.  "Photosynthesis" is archived; Alice calls
    [updatePlan] with the status draft, which the schema accepts; the plan is
    no longer archived. *)
Lemma archived_plan_reopened :
  archivedPlan archive 1 ∧
  schema.updatePlan (UpdatePlan.mk 1 None None None None None None (Some draft)) = true ∧
  ¬ archivedPlan
      (run anyUrl
         [ mkCall (Some alice) 30
             (UpdatePlanReq (UpdatePlan.mk 1 None None None None None None (Some draft))) ]
         archive) 1.
Proof. split; [by_evaluation|]. split; by_evaluation. Qed.

(** C3, amended.  An archived plan stays archived through every sequence of
    calls, by any callers, in which no [updatePlan] names the plan and carries
    the status draft or published: the other thirteen actions, [updatePlan] of
    other plans, and [updatePlan] with no status or the status archived never
    take a plan out of archived. *)
Theorem archived_until_reopened (isUrl : string → bool) (calls : list Call) (s : Store)
    (id : Z) :
  archivedPlan s id →
  Forall (λ c, ¬ reopens id (request c)) calls →
  archivedPlan (run isUrl calls s) id.
Proof.
  intros Hs Hcalls. revert s Hs.
  induction Hcalls as [|c calls Hc _ IH]; intros s Hs; [done|].
  cbn [run foldl]. apply IH. by apply archived_serve.
Qed.

(** Alice retitles the archived plan, archives it again and saves an
    objective in it; Bob sets plan 2 to draft. *)
Lemma archived_until_reopened_witness :
  archivedPlan archive 1 ∧
  archivedPlan
    (run anyUrl
       [ mkCall (Some alice) 30
           (UpdatePlanReq (UpdatePlan.mk 1 (Some "Light") None None None None None None));
         mkCall (Some alice) 31
           (UpdatePlanReq (UpdatePlan.mk 1 None None None None None None (Some archived)));
         mkCall (Some alice) 32
           (SaveObjectiveReq (SaveObjective.mk (Some 1) 1 "Revised" None));
         mkCall (Some bob) 33
           (UpdatePlanReq (UpdatePlan.mk 2 None None None None None None (Some draft)));
         mkCall (Some alice) 34 (ArchivePlanReq (ArchivePlan.mk 1)) ]
       archive) 1.
Proof.
  assert (Hs : archivedPlan archive 1) by by_evaluation.
  split; [exact Hs|].
  apply (archived_until_reopened anyUrl _ archive 1 Hs).
  by_evaluation.
Defined.

(** ** The order of a child row *)

(** The row a save returns is the new row, or a stored row of the table
    overwritten with [baseValues]. *)
Lemma saveChild_row t id planId baseValues context now s (row : Row) s' :
  saveChild t id planId baseValues context now s = (Ok (Some row), s') →
  row = db.newRow t now (db.nextId (table t s)) baseValues ∨
  ∃ r : Row, r ∈ rows (table t s) ∧ row = baseValues ∪ r.
Proof.
  unfold saveChild. destruct context as [user|]; step; [|done].
  destruct (head (limit 1 _)) as [plan|]; [|done].
  assert (Hcreate : ∀ o,
            (Ok (head [db.newRow t now (db.nextId (table t s)) baseValues]), o)
            = (Ok (Some row), s') →
            row = db.newRow t now (db.nextId (table t s)) baseValues)
    by (intros o [= <- _]; done).
  destruct id as [i|]; [|by left; eapply Hcreate].
  destruct (truthy (Some (VNum i))); [|by left; eapply Hcreate].
  destruct (head (limit 1 _)) as [existing|]; [|done].
  destruct (decide _); [done|]. intros [= Hrow _]. right.
  apply head_Some_elem_of, list_elem_of_fmap in Hrow as (r & -> & Hr).
  apply list_elem_of_filter in Hr as [_ Hr]. by exists r.
Qed.

Lemma saveObjective_order input context now s (row : Row) s' :
  SaveObjective.order input = None →
  saveObjective input context now s = (Ok (Some row), s') →
  row !! "order" = Some (VNum 1).
Proof.
  intros Horder Hsave. unfold saveObjective in Hsave. rewrite Horder in Hsave.
  apply saveChild_row in Hsave as [->|(r & _ & ->)]; [reflexivity|].
  by apply lookup_union_Some_l.
Qed.

Lemma saveStep_order input context now s (row : Row) s' :
  SaveStep.order input = None →
  saveStep input context now s = (Ok (Some row), s') →
  row !! "order" = Some (VNum 1).
Proof.
  intros Horder Hsave. unfold saveStep in Hsave. rewrite Horder in Hsave.
  apply saveChild_row in Hsave as [->|(r & _ & ->)].
  - by destruct (SaveStep.title input), (SaveStep.durationMinutes input).
  - apply lookup_union_Some_l. rewrite lookup_obj.
    by destruct (SaveStep.title input), (SaveStep.durationMinutes input).
Qed.

Lemma local_noOrder : local LessonMaterials noOrder.
Proof. intros s s' E. unfold noOrder. cbn [table] in E. by rewrite E. Qed.

Lemma newRow_material_order now id values :
  db.newRow LessonMaterials now id values !! "order" = None.
Proof. reflexivity. Qed.

Lemma noOrder_insert now values : preserves noOrder (db.insert LessonMaterials now values).
Proof.
  intros s Hs r. unfold db.insert. cbn [snd table set_table materials rows].
  intros Hr. apply elem_of_app in Hr as [Hr|Hr]; [by apply Hs|].
  apply list_elem_of_singleton in Hr as ->. apply newRow_material_order.
Qed.

Lemma noOrder_update values c `{∀ r, Decision (c r)} :
  values !! "order" = None → preserves noOrder (db.update LessonMaterials values c).
Proof.
  intros Hv s Hs r'. unfold db.update. cbn [snd table set_table materials rows].
  intros Hr'. apply list_elem_of_fmap in Hr' as (r & -> & Hr).
  destruct (decide (c r)); [|by apply Hs].
  apply lookup_union_None. split; [done|by apply Hs].
Qed.

Lemma noOrder_delete c `{∀ r, Decision (c r)} :
  preserves noOrder (db.delete LessonMaterials c).
Proof.
  intros s Hs r. unfold db.delete. cbn [snd table set_table materials rows].
  intros Hr. apply list_elem_of_filter in Hr as [_ Hr]. by apply Hs.
Qed.

Lemma material_values_order (input : SaveMaterial.t) :
  obj [ ("planId", Some (VNum (SaveMaterial.planId input)));
        ("name", Some (VText (SaveMaterial.name input)));
        ("type", VText <$> SaveMaterial.type input);
        ("url", VText <$> SaveMaterial.url input) ] !! "order" = None.
Proof. rewrite lookup_obj. reflexivity. Qed.

Lemma noOrder_serve isUrl c s : noOrder s → noOrder (serve isUrl c s).
Proof.
  intros Hs. unfold serve. destruct (request c); cbv zeta.
  all: refine (preserves_apply noOrder _ s _ Hs).
  all: preserve.
  - unfold createPlan. preserve_other local_noOrder.
  - unfold updatePlan. preserve_other local_noOrder.
  - unfold archivePlan. preserve_other local_noOrder.
  - unfold listMyPlans. preserve.
  - unfold getPlanWithDetails. preserve.
  - unfold saveObjective, saveChild. preserve_other local_noOrder.
  - unfold deleteObjective, deleteChild. preserve_other local_noOrder.
  - unfold saveStep, saveChild. preserve_other local_noOrder.
  - unfold deleteStep, deleteChild. preserve_other local_noOrder.
  - unfold saveMaterial, saveChild. preserve.
    + apply noOrder_update, material_values_order.
    + apply noOrder_insert.
    + apply noOrder_insert.
  - unfold deleteMaterial, deleteChild. preserve; apply noOrder_delete.
  - unfold createJob. preserve_other local_noOrder.
  - unfold updateJob. preserve_other local_noOrder.
  - unfold listJobs. preserve.
Qed.

Lemma noOrder_run isUrl calls s : noOrder s → noOrder (run isUrl calls s).
Proof.
  revert s. induction calls as [|c calls IH]; intros s Hs; [done|].
  cbn [run foldl]. apply IH. by apply noOrder_serve.
Qed.

Lemma saveMaterial_order input context now s (row : Row) s' :
  noOrder s →
  saveMaterial input context now s = (Ok (Some row), s') →
  row !! "order" = None.
Proof.
  intros Hs Hsave. unfold saveMaterial in Hsave.
  apply saveChild_row in Hsave as [->|(r & Hr & ->)]; [reflexivity|].
  apply lookup_union_None. split; [apply material_values_order | by apply Hs].
Qed.

(** C4, as the code has it.  The materials table declares no [order] column,
    and the material Alice saves comes back without an [order] member, not
    with the order 1. *)
Lemma material_row_without_order :
  ("order" ∉ (columns LessonMaterials).*1) ∧
  let saved :=
    saveMaterial (SaveMaterial.mk None 1 "Handout" None None) (Some alice) 40 classroom in
  saved.1 = Ok (Some (returned saved)) ∧
  returned saved !! "name" = Some (VText "Handout") ∧
  returned saved !! "order" = None.
Proof. split; [by_evaluation|]. repeat split; by_evaluation. Qed.

(** C4, amended.  The row [saveObjective] or [saveStep] returns has the order
    1 when the input gives none, on the create path and on the update path.
    Materials have no order: in every store the server can reach from the
    empty one, the row [saveMaterial] returns has no [order] member. *)
Theorem order_defaults_for_objectives_and_steps :
  (∀ input context now s (row : Row) s',
     SaveObjective.order input = None →
     saveObjective input context now s = (Ok (Some row), s') →
     row !! "order" = Some (VNum 1)) ∧
  (∀ input context now s (row : Row) s',
     SaveStep.order input = None →
     saveStep input context now s = (Ok (Some row), s') →
     row !! "order" = Some (VNum 1)) ∧
  (∀ isUrl calls input context now (row : Row) s',
     saveMaterial input context now (run isUrl calls emptyStore) = (Ok (Some row), s') →
     row !! "order" = None).
Proof.
  split; [|split].
  - apply saveObjective_order.
  - apply saveStep_order.
  - intros isUrl calls input context now row s'. apply saveMaterial_order.
    apply noOrder_run. intros r Hr. by apply elem_of_nil in Hr.
Qed.

(** Alice saves a new objective and resaves her step, both without an order,
    and saves a material. *)
Lemma order_defaults_witness :
  let objective :=
    saveObjective (SaveObjective.mk None 1 "Explain the light reactions" None)
      (Some alice) 40 classroom in
  let step :=
    saveStep (SaveStep.mk (Some 1) 1 None "Warm-up" None None) (Some alice) 41 classroom in
  let material :=
    saveMaterial (SaveMaterial.mk None 1 "Handout" None None) (Some alice) 42 classroom in
  objective = (Ok (Some (returned objective)), objective.2) ∧
  returned objective !! "order" = Some (VNum 1) ∧
  step = (Ok (Some (returned step)), step.2) ∧
  returned step !! "order" = Some (VNum 1) ∧
  material = (Ok (Some (returned material)), material.2) ∧
  returned material !! "order" = None.
Proof.
  intros objective step material.
  destruct order_defaults_for_objectives_and_steps as (Hobjective & Hstep & Hmaterial).
  assert (Eo : objective = (Ok (Some (returned objective)), objective.2)) by by_evaluation.
  assert (Es : step = (Ok (Some (returned step)), step.2)) by by_evaluation.
  assert (Em : material = (Ok (Some (returned material)), material.2)) by by_evaluation.
  split; [exact Eo|].
  split.
  { exact (Hobjective (SaveObjective.mk None 1 "Explain the light reactions" None)
             (Some alice) 40 classroom (returned objective) objective.2 eq_refl Eo). }
  split; [exact Es|].
  split.
  { exact (Hstep (SaveStep.mk (Some 1) 1 None "Warm-up" None None)
             (Some alice) 41 classroom (returned step) step.2 eq_refl Es). }
  split; [exact Em|].
  exact (Hmaterial anyUrl _ (SaveMaterial.mk None 1 "Handout" None None)
           (Some alice) 42 (returned material) material.2 Em).
Defined.
